(** * Connector pipelines: batch fan-out, shared dockerd service, completion report

    A shallow embedding of
    [airbyte-ci/connectors/pipelines/pipelines/airbyte_ci/connectors/pipeline.py]:
    [context_to_step_result], [run_report_complete_pipeline] and
    [run_connectors_pipelines].

    Python objects that the code mutates in place (the connector contexts)
    live in a heap addressed by references; the list [contexts] is a list of
    references, so that a [StepResult] or a [Report] that keeps a context keeps
    the object, not a copy.  Every call into a collaborator (dagger, the
    dockerd service, anyio's task group, the logger, [Report.save]) is
    recorded, in program order, in a trace of events.  Exceptions are an
    explicit outcome. *)

From stdpp Require Import base option list gmap strings.
From Stdlib Require Import ZArith.

Local Open Scope string_scope.
Local Open Scope list_scope.

(** ** Enumerations *)

(** Modelled from the spec: the enum [ContextState] is imported from
    [pipelines.consts], which is absent; the source names the members
    SUCCESSFUL, FAILURE and ERROR, the spec gives the fourth, Pending. *)
Module ContextState.
Inductive t := PENDING | SUCCESSFUL | FAILURE | ERROR.
#[global] Instance state_eq_dec : EqDecision t.
Proof. solve_decision. Defined.
End ContextState.

(** Modelled from the spec: the enum [StepStatus] is imported from
    [pipelines.models.steps], which is absent; the spec's binary outcome
    {Success, Failure}, under the names the source uses. *)
Module StepStatus.
Inductive t := SUCCESS | FAILURE.
#[global] Instance status_eq_dec : EqDecision t.
Proof. solve_decision. Defined.
End StepStatus.

(** Modelled from the spec: the enum [ConnectorLanguage] is imported from
    [connector_ops.utils], which is absent.  The source names one member,
    JAVA; every other class key is kept under its name. *)
Module ConnectorLanguage.
Inductive t := JAVA | Other (name : string).
#[global] Instance language_eq_dec : EqDecision t.
Proof. solve_decision. Defined.
Definition encode (l : t) : option string :=
  match l with JAVA => None | Other n => Some n end.
Definition decode (o : option string) : t :=
  match o with None => JAVA | Some n => Other n end.
#[global] Instance language_countable : Countable t.
Proof. apply (inj_countable' encode decode). by intros []. Defined.
End ConnectorLanguage.

(** ** Values *)

(** An [anyio.Semaphore].  Two semaphores are the same object when they were
    created at the same place: the module-level table is built once, at
    import; [run_connectors_pipelines] creates one semaphore per call. *)
Inductive Scope := ModuleScope | CallScope.

Record Semaphore := { sem_scope : Scope; initial_value : Z }.

Definition Path := string.

Inductive LogOutput := sys_stderr | opened_file (path : Path).

(** [dagger.Config(log_output=..., execute_timeout=...)]. *)
Record Config := { log_output : LogOutput; execute_timeout : option Z }.

(** A [dagger.Client]: the connection's configuration and the labels added by
    [client.pipeline(name)]. *)
Record Client := { client_config : Config; pipeline_labels : list string }.

Definition pipeline (c : Client) (name : string) : Client :=
  {| client_config := client_config c;
     pipeline_labels := pipeline_labels c ++ [name] |}.

(** The handle returned by [client.set_secret(name, plaintext)]. *)
Record Secret := { secret_name : string; plaintext : string }.

(** The service built by [docker.with_global_dockerd_service]: the client it
    is bound to and the registry credentials it was given, if any. *)
Record Service := {
  service_client : Client;
  registry_credentials : option (Secret * Secret)
}.

Record Connector := {
  technical_name : string;
  language : ConnectorLanguage.t
}.

(** The attributes of a [ConnectorContext] that the module reads or writes. *)
Record ConnectorContext := {
  state : ContextState.t;
  connector : Connector;
  report_output_prefix : string;
  pipeline_name : string;
  docker_hub_username : option string;
  docker_hub_password : option string;
  dagger_client : option Client;
  dockerd_service : option Service
}.

Definition set_pipeline_name (v : string) (c : ConnectorContext) :=
  {| state := state c; connector := connector c;
     report_output_prefix := report_output_prefix c;
     pipeline_name := v;
     docker_hub_username := docker_hub_username c;
     docker_hub_password := docker_hub_password c;
     dagger_client := dagger_client c;
     dockerd_service := dockerd_service c |}.

Definition set_dagger_client (v : Client) (c : ConnectorContext) :=
  {| state := state c; connector := connector c;
     report_output_prefix := report_output_prefix c;
     pipeline_name := pipeline_name c;
     docker_hub_username := docker_hub_username c;
     docker_hub_password := docker_hub_password c;
     dagger_client := Some v;
     dockerd_service := dockerd_service c |}.

Definition set_dockerd_service (v : Service) (c : ConnectorContext) :=
  {| state := state c; connector := connector c;
     report_output_prefix := report_output_prefix c;
     pipeline_name := pipeline_name c;
     docker_hub_username := docker_hub_username c;
     docker_hub_password := docker_hub_password c;
     dagger_client := dagger_client c;
     dockerd_service := Some v |}.

Definition set_state (v : ContextState.t) (c : ConnectorContext) :=
  {| state := v; connector := connector c;
     report_output_prefix := report_output_prefix c;
     pipeline_name := pipeline_name c;
     docker_hub_username := docker_hub_username c;
     docker_hub_password := docker_hub_password c;
     dagger_client := dagger_client c;
     dockerd_service := dockerd_service c |}.

(** A reference to a context object. *)
Definition Ref := nat.

Definition Heap := Ref → ConnectorContext.

(** Modelled from the spec: [NoOpStep] is imported from
    [pipelines.airbyte_ci.steps.no_op], which is absent.  A step that does
    nothing: running it yields the result record that pairs the step (and so
    its context) with the status the step was built with. *)
Record NoOpStep := { step_context : Ref; step_status : StepStatus.t }.

Record StepResult := { step : NoOpStep; status : StepStatus.t }.

(** The fields [run_report_complete_pipeline] gives to [Report(...)]. *)
Record Report := {
  name : string;
  pipeline_context : Ref;
  steps_results : list StepResult;
  filename : string
}.

Inductive PyExn :=
| IndexError
| ValueError (of_state : ContextState.t)
| CollaboratorError (what : string).

Section Pipeline.

(** The caller's work function and its extra positional arguments are opaque
    to the module. *)
Context {Callable Any : Type}.

(** What [TaskGroup.start_soon(func, context, semaphore, *args)] schedules. *)
Record Task := {
  task_func : Callable;
  task_context : Ref;
  task_semaphore : Semaphore;
  task_args : list Any
}.

(** ** Collaborators and the trace *)

Inductive Event :=
| LoggerInfo (msg : string)
| CreateAndOpenFile (path : Path)
| ConnectionEnter (cfg : Config) (raised : option PyExn)
| ConnectionExit
| SetSecret (secret : Secret)
| WithGlobalDockerdService (svc : Service)
| ServiceStart (svc : Service) (raised : option PyExn)
| SubprocessRun (argv : list string)
| StartSoon (task : Task)
| TaskGroupExit (raised : option PyExn)
| ServiceStop (svc : Service) (raised : option PyExn)
| ReportInit (report : Report)
| ReportSave (report : Report) (raised : option PyExn).

(** The behaviour of what the module awaits.  Each awaited operation either
    returns or raises.  The tasks of a task group run interleaved, in an order
    the module does not control: [tasks_run] gives the heap they leave and the
    exception the group raises when it is left, if a task raised. *)
Record Collaborators := {
  connection_enter : Config → option PyExn;
  service_start : Service → option PyExn;
  tasks_run : list Task → Heap → Heap * option PyExn;
  service_stop : Service → option PyExn;
  report_save : Report → option PyExn
}.

Record World := {
  heap : Heap;
  scheduled : list Task;
  trace : list Event
}.

Inductive Outcome (A : Type) :=
| Returned (a : A)
| Raised (e : PyExn).
Global Arguments Returned {A} a.
Global Arguments Raised {A} e.

Definition Run (A : Type) : Type := World → Outcome A * World.

Definition ret {A} (a : A) : Run A := λ w, (Returned a, w).

Definition bind {A B} (m : Run A) (k : A → Run B) : Run B :=
  λ w, match m w with
       | (Returned a, w') => k a w'
       | (Raised e, w') => (Raised e, w')
       end.

Definition raise {A} (e : PyExn) : Run A := λ w, (Raised e, w).

Declare Scope run_scope.
Delimit Scope run_scope with run.
Bind Scope run_scope with Run.
Notation "x <- m ;; k" := (bind m (λ x, k))
  (at level 100, m at next level, k at level 200, right associativity) : run_scope.
Notation "m ;; k" := (bind m (λ _, k))
  (at level 100, k at level 200, right associativity) : run_scope.
Local Open Scope run_scope.

Definition emit (e : Event) : Run unit :=
  λ w, (Returned tt,
        {| heap := heap w; scheduled := scheduled w; trace := trace w ++ [e] |}).

(** [obj.attr] and [obj.attr = v], on the object a reference points to. *)
Definition getattr {A} (r : Ref) (attr : ConnectorContext → A) : Run A :=
  λ w, (Returned (attr (heap w r)), w).

Definition update (r : Ref) (f : ConnectorContext → ConnectorContext) (h : Heap) : Heap :=
  λ a, if decide (a = r) then f (h a) else h a.

Definition setattr (r : Ref) (f : ConnectorContext → ConnectorContext) : Run unit :=
  λ w, (Returned tt,
        {| heap := update r f (heap w); scheduled := scheduled w; trace := trace w |}).

(** [l[i]]: IndexError when out of range. *)
Definition subscript {A} (l : list A) (i : nat) : Run A :=
  match l !! i with
  | Some x => ret x
  | None => raise IndexError
  end.

(** An awaited collaborator: the call is recorded with what it did. *)
Definition await (call : option PyExn → Event) (raised : option PyExn) : Run unit :=
  emit (call raised);;
  match raised with
  | Some e => raise e
  | None => ret tt
  end.

(** [main_logger.info(msg)]; only the literal part of the message is kept. *)
Definition info (msg : string) : Run unit := emit (LoggerInfo msg).

(** [main_logger.info(prefix + subprocess.run(argv, capture_output=True).stdout.decode("utf-8"))] *)
Definition info_subprocess (prefix : string) (argv : list string) : Run unit :=
  emit (SubprocessRun argv);;
  info prefix.

(** [for x in l: body(x)] *)
Fixpoint for_each {A} (l : list A) (body : A → Run unit) : Run unit :=
  match l with
  | [] => ret tt
  | x :: l' => body x;; for_each l' body
  end.

(** [[await f(x) for x in l]] *)
Fixpoint comprehension {A B} (f : A → Run B) (l : list A) : Run (list B) :=
  match l with
  | [] => ret []
  | x :: l' => y <- f x;; ys <- comprehension f l';; ret (y :: ys)
  end.

(** [try: body finally: cleanup], which is what leaving an [async with]
    block does on every path. *)
Definition finally {A} (body : Run A) (cleanup : Run unit) : Run A :=
  λ w, match body w with
       | (o, w') =>
           match cleanup w' with
           | (Returned _, w'') => (o, w'')
           | (Raised e, w'') => (Raised e, w'')
           end
       end.

(** [async with dagger.Connection(cfg) as dagger_client: body] *)
Definition with_connection {A} (env : Collaborators) (cfg : Config)
    (body : Client → Run A) : Run A :=
  await (ConnectionEnter cfg) (connection_enter env cfg);;
  finally (body {| client_config := cfg; pipeline_labels := [] |}) (emit ConnectionExit).

(** [tg.start_soon(func, context, semaphore, *args)]: the task is scheduled,
    it starts running once the caller next yields to the event loop. *)
Definition start_soon (task : Task) : Run unit :=
  λ w, (Returned tt,
        {| heap := heap w; scheduled := scheduled w ++ [task];
           trace := trace w ++ [StartSoon task] |}).

(** [async with anyio.create_task_group() as tg: body].  Leaving the block is
    the join barrier: the scheduled tasks run to their end, and the group
    raises when one of them raised.  When the body itself raises, the
    scheduled tasks are cancelled and the exception goes on. *)
Definition with_task_group (env : Collaborators) (body : Run unit) : Run unit :=
  λ w, match body {| heap := heap w; scheduled := []; trace := trace w |} with
       | (Returned _, w') =>
           let '(h, raised) := tasks_run env (scheduled w') (heap w') in
           await TaskGroupExit raised
             {| heap := h; scheduled := []; trace := trace w' |}
       | (Raised e, w') =>
           (Raised e, {| heap := heap w'; scheduled := [];
                         trace := trace w' ++ [TaskGroupExit (Some e)] |})
       end.

(** [NoOpStep(context, status).run()] *)
Definition NoOpStep_run (context : Ref) (step_status : StepStatus.t) : Run StepResult :=
  ret {| step := {| step_context := context; step_status := step_status |};
         status := step_status |}.

(** ** The module *)

(** The module-level table: Java connectors are forced to run one at a time. *)
Definition CONNECTOR_LANGUAGE_TO_FORCED_CONCURRENCY_MAPPING
    : gmap ConnectorLanguage.t Semaphore :=
  {[ ConnectorLanguage.JAVA := {| sem_scope := ModuleScope; initial_value := 1 |} ]}.

(** [d.get(key, fallback)] *)
Definition dict_get {K V} `{Countable K} (d : gmap K V) (key : K) (fallback : V) : V :=
  default fallback (d !! key).

Definition context_to_step_result (context : Ref) : Run StepResult :=
  s <- getattr context state;;
  if decide (s = ContextState.SUCCESSFUL) then NoOpStep_run context StepStatus.SUCCESS
  else
    s <- getattr context state;;
    if decide (s = ContextState.FAILURE) then NoOpStep_run context StepStatus.FAILURE
    else
      s <- getattr context state;;
      if decide (s = ContextState.ERROR) then NoOpStep_run context StepStatus.FAILURE
      else
        s <- getattr context state;;
        raise (ValueError s).

Definition run_report_complete_pipeline (env : Collaborators)
    (dagger_client : Client) (contexts : list Ref) : Run unit :=
  match contexts with
  | [] => ret tt
  | _ =>
      first_connector_context <- subscript contexts 0;;
      prefix <- getattr first_connector_context report_output_prefix;;
      let pipeline_name := "Report upload " +:+ prefix in
      setattr first_connector_context (set_pipeline_name pipeline_name);;
      steps_results <- comprehension context_to_step_result contexts;;
      let report :=
        {| name := pipeline_name;
           pipeline_context := first_connector_context;
           steps_results := steps_results;
           filename := "complete" |} in
      emit (ReportInit report);;
      await (ReportSave report) (report_save env report)
  end.

(** Python's truth value of an [Optional[str]]. *)
Definition truthy (v : option string) : bool :=
  match v with
  | Some s => negb (bool_decide (s = ""))
  | None => false
  end.

Definition set_secret (name : string) (value : string) : Run Secret :=
  let secret := {| secret_name := name; plaintext := value |} in
  emit (SetSecret secret);;
  ret secret.

Definition with_global_dockerd_service (dagger_client : Client)
    (credentials : option (Secret * Secret)) : Run Service :=
  let svc := {| service_client := dagger_client; registry_credentials := credentials |} in
  emit (WithGlobalDockerdService svc);;
  ret svc.

Definition run_connectors_pipelines (env : Collaborators)
    (contexts : list Ref) (connector_pipeline : Callable) (pipeline_name : string)
    (concurrency : Z) (dagger_logs_path : option Path) (execute_timeout : option Z)
    (args : list Any) : Run (list Ref) :=
  info "<<<<<<<<<<<<<<< starting run_connectors_pipelines(execute_timeout=";;
  let default_connectors_semaphore :=
    {| sem_scope := CallScope; initial_value := concurrency |} in
  dagger_logs_output <-
    match dagger_logs_path with
    | None => ret sys_stderr
    | Some path => emit (CreateAndOpenFile path);; ret (opened_file path)
    end;;
  with_connection env
    {| log_output := dagger_logs_output; execute_timeout := execute_timeout |}
    (λ dagger_client,
      first <- subscript contexts 0;;
      docker_hub_username <- getattr first docker_hub_username;;
      first <- subscript contexts 0;;
      docker_hub_password <- getattr first docker_hub_password;;
      dockerd_service <-
        match docker_hub_username, docker_hub_password with
        | Some username, Some password =>
            if truthy docker_hub_username && truthy docker_hub_password then
              docker_hub_username_secret <- set_secret "DOCKER_HUB_USERNAME" username;;
              docker_hub_password_secret <- set_secret "DOCKER_HUB_PASSWORD" password;;
              with_global_dockerd_service dagger_client
                (Some (docker_hub_username_secret, docker_hub_password_secret))
            else with_global_dockerd_service dagger_client None
        | _, _ => with_global_dockerd_service dagger_client None
        end;;
      info "<<<<<<<<<<<<<<< about to start docker";;
      await (ServiceStart dockerd_service) (service_start env dockerd_service);;
      info "<<<<<<<<<<<<<<< started docker";;
      info_subprocess "" ["pwd"];;
      info_subprocess "" ["ls"];;
      info_subprocess "" ["cat"; "pyproject.toml"];;
      info_subprocess "" ["md5sum"; "pyproject.toml"];;
      info_subprocess "" ["md5sum"; "poetry.lock"];;
      info_subprocess "pyproject diff: " ["diff"; "-u"; "pyproject.toml"; "pyproject.toml.1"];;
      info_subprocess "poetry.lock diff: " ["diff"; "-u"; "poetry.lock"; "poetry.lock.1"];;
      with_task_group env
        (for_each contexts (λ context,
           info "<<<<<<<<<<<<<<< context = ";;
           c <- getattr context connector;;
           setattr context
             (set_dagger_client (pipeline dagger_client (pipeline_name +:+ " - " +:+ technical_name c)));;
           setattr context (set_dockerd_service dockerd_service);;
           c <- getattr context connector;;
           start_soon
             {| task_func := connector_pipeline;
                task_context := context;
                task_semaphore :=
                  dict_get CONNECTOR_LANGUAGE_TO_FORCED_CONCURRENCY_MAPPING
                    (language c) default_connectors_semaphore;
                task_args := args |}));;
      info "<<<<<<<<<<<<<<< done contexts loop";;
      await (ServiceStop dockerd_service) (service_stop env dockerd_service);;
      info "<<<<<<<<<<<<<<< about to run_report_complete_pipeline";;
      run_report_complete_pipeline env dagger_client contexts);;
  info "<<<<<<<<<<<<<<< done...";;
  ret contexts.

End Pipeline.

(** ** Concrete batches *)

(** A Java connector with registry credentials and a Python connector
    without, both still pending. *)
Definition java_context : ConnectorContext :=
  {| state := ContextState.PENDING;
     connector := {| technical_name := "source-postgres";
                     language := ConnectorLanguage.JAVA |};
     report_output_prefix := "airbyte-ci/connectors/test/1700000000";
     pipeline_name := "test source-postgres";
     docker_hub_username := Some "ci-user";
     docker_hub_password := Some "ci-token";
     dagger_client := None;
     dockerd_service := None |}.

Definition python_context : ConnectorContext :=
  {| state := ContextState.PENDING;
     connector := {| technical_name := "source-faker";
                     language := ConnectorLanguage.Other "python" |};
     report_output_prefix := "airbyte-ci/connectors/test/1700000001";
     pipeline_name := "test source-faker";
     docker_hub_username := None;
     docker_hub_password := None;
     dagger_client := None;
     dockerd_service := None |}.

Definition two_connectors : Heap :=
  λ r, match r with 0 => java_context | _ => python_context end.

(** Collaborators that never raise; every task ends its context in
    SUCCESSFUL. *)
Definition reliable : @Collaborators string Z :=
  {| connection_enter := λ _, None;
     service_start := λ _, None;
     tasks_run := λ tasks h,
       (foldr (λ task h, update (task_context task) (set_state ContextState.SUCCESSFUL) h) h tasks,
        None);
     service_stop := λ _, None;
     report_save := λ _, None |}.

(** The same, but one task raises: the task group raises at the join. *)
Definition one_task_raises : @Collaborators string Z :=
  {| connection_enter := λ _, None;
     service_start := λ _, None;
     tasks_run := λ tasks h, (h, Some (CollaboratorError "connector pipeline failed"));
     service_stop := λ _, None;
     report_save := λ _, None |}.

(** The same as [reliable], but the tasks leave the contexts pending. *)
Definition idle_tasks : @Collaborators string Z :=
  {| connection_enter := λ _, None;
     service_start := λ _, None;
     tasks_run := λ tasks h, (h, None);
     service_stop := λ _, None;
     report_save := λ _, None |}.

(** The two connectors once their tasks are over: the first succeeded, the
    second failed. *)
Definition finished : Heap :=
  λ r, match r with
       | 0 => set_state ContextState.SUCCESSFUL java_context
       | _ => set_state ContextState.FAILURE python_context
       end.

(** The first connector succeeded, the second is still pending. *)
Definition one_pending : Heap :=
  λ r, match r with
       | 0 => set_state ContextState.SUCCESSFUL java_context
       | _ => python_context
       end.


(** Collaborators whose service does not start, and collaborators whose
    service does not stop. *)
Definition start_fails : @Collaborators string Z :=
  {| connection_enter := λ _, None;
     service_start := λ _, Some (CollaboratorError "dockerd did not start");
     tasks_run := λ tasks h, (h, None);
     service_stop := λ _, None;
     report_save := λ _, None |}.

Definition stop_fails : @Collaborators string Z :=
  {| connection_enter := λ _, None;
     service_start := λ _, None;
     tasks_run := λ tasks h, (h, None);
     service_stop := λ _, Some (CollaboratorError "dockerd did not stop");
     report_save := λ _, None |}.

(** The client of a connection that logs to the standard error and has no
    time limit, and the service configured on it from [java_context]. *)
Definition stderr_client : Client :=
  {| client_config := {| log_output := sys_stderr; execute_timeout := None |};
     pipeline_labels := [] |}.

Definition java_service : Service :=
  {| service_client := stderr_client;
     registry_credentials :=
       Some ({| secret_name := "DOCKER_HUB_USERNAME"; plaintext := "ci-user" |},
             {| secret_name := "DOCKER_HUB_PASSWORD"; plaintext := "ci-token" |}) |}.

(** ** Calls and what they leave behind *)

Section Specification.

Context {Callable Any : Type}.
Implicit Types (w : @World Callable Any) (h : Heap) (t : list (@Event Callable Any)).

(** A call that starts with nothing scheduled and an empty trace: the trace
    it leaves holds the events of that call alone. *)
Definition started_from h : @World Callable Any :=
  {| heap := h; scheduled := []; trace := [] |}.

Definition outcome {A} (r : Outcome A * @World Callable Any) : Outcome A := r.1.
Definition events {A} (r : Outcome A * @World Callable Any) : list Event := trace r.2.
Definition final_heap {A} (r : Outcome A * @World Callable Any) : Heap := heap r.2.

(** The tasks handed to [start_soon], in the order of the calls. *)
Definition started_tasks t : list (@Task Callable Any) :=
  omap (λ e, match e with StartSoon task => Some task | _ => None end) t.

(** The calls of [dockerd_service.stop()], with what each did. *)
Definition service_stops t : list (Service * option PyExn) :=
  omap (λ e, match e with ServiceStop svc r => Some (svc, r) | _ => None end) t.

(** What leaving the task group did, once per task group. *)
Definition task_group_exits t : list (option PyExn) :=
  omap (λ e, match e with TaskGroupExit r => Some r | _ => None end) t.

(** The calls that configure the shared service: the secrets set on the
    client and the service built from them. *)
Definition service_configuration t : list (@Event Callable Any) :=
  omap (λ e, match e with
             | SetSecret _ | WithGlobalDockerdService _ => Some e
             | _ => None
             end) t.

(** The calls of [dockerd_service.start()], with what each did. *)
Definition service_starts t : list (Service * option PyExn) :=
  omap (λ e, match e with ServiceStart svc r => Some (svc, r) | _ => None end) t.

(** The times the connection was left. *)
Definition connection_exits t : list unit :=
  omap (λ e, match e with ConnectionExit => Some tt | _ => None end) t.

(** The connections asked for, each with its configuration. *)
Definition entered_connections t : list Config :=
  omap (λ e, match e with ConnectionEnter cfg _ => Some cfg | _ => None end) t.

(** The log files created. *)
Definition created_files t : list Path :=
  omap (λ e, match e with CreateAndOpenFile path => Some path | _ => None end) t.

(** The reports built, and the calls of [report.save()] with what each did. *)
Definition built_reports t : list Report :=
  omap (λ e, match e with ReportInit r => Some r | _ => None end) t.

Definition saved_reports t : list (Report * option PyExn) :=
  omap (λ e, match e with ReportSave r raised => Some (r, raised) | _ => None end) t.

(** The exceptions that collaborators raised. *)
Definition collaborator_errors t : list PyExn :=
  omap (λ e, match e with
             | ConnectionEnter _ (Some x) | ServiceStart _ (Some x)
             | TaskGroupExit (Some x) | ServiceStop _ (Some x)
             | ReportSave _ (Some x) => Some x
             | _ => None
             end) t.

(** The kinds of events that the pieces of a trace are made of. *)
Definition logging (e : @Event Callable Any) : Prop :=
  match e with
  | LoggerInfo _ | CreateAndOpenFile _ | SubprocessRun _ => True
  | _ => False
  end.

Definition configuring (e : @Event Callable Any) : Prop :=
  match e with
  | SetSecret _ | WithGlobalDockerdService _ => True
  | _ => False
  end.

Definition launching (e : @Event Callable Any) : Prop :=
  match e with
  | LoggerInfo _ | StartSoon _ => True
  | _ => False
  end.

(** The states [context_to_step_result] accepts, and the status it gives. *)
Definition recognized (s : ContextState.t) : bool :=
  match s with
  | ContextState.SUCCESSFUL | ContextState.FAILURE | ContextState.ERROR => true
  | ContextState.PENDING => false
  end.

Definition result_record (context : Ref) (st : StepStatus.t) : StepResult :=
  {| step := {| step_context := context; step_status := st |}; status := st |}.

(** *** The module, one case per exit path *)

Variables (env : @Collaborators Callable Any) (contexts : list Ref)
  (connector_pipeline : Callable) (pipeline_name : string) (concurrency : Z)
  (dagger_logs_path : option Path) (execute_timeout : option Z) (args : list Any).

Definition the_config : Config :=
  Build_Config
    match dagger_logs_path with
    | None => sys_stderr
    | Some path => opened_file path
    end
    execute_timeout.

Definition the_client : Client :=
  {| client_config := the_config; pipeline_labels := [] |}.

Definition prologue : list (@Event Callable Any) :=
  LoggerInfo "<<<<<<<<<<<<<<< starting run_connectors_pipelines(execute_timeout=" ::
  match dagger_logs_path with
  | None => []
  | Some path => [CreateAndOpenFile path]
  end.

Definition credentials_of (c : ConnectorContext) : option (Secret * Secret) :=
  match docker_hub_username c, docker_hub_password c with
  | Some username, Some password =>
      if truthy (docker_hub_username c) && truthy (docker_hub_password c)
      then Some ({| secret_name := "DOCKER_HUB_USERNAME"; plaintext := username |},
                 {| secret_name := "DOCKER_HUB_PASSWORD"; plaintext := password |})
      else None
  | _, _ => None
  end.

Definition service_of (c : ConnectorContext) : Service :=
  {| service_client := the_client; registry_credentials := credentials_of c |}.

Definition configuration_events (c : ConnectorContext) : list (@Event Callable Any) :=
  match credentials_of c with
  | Some (u, p) => [SetSecret u; SetSecret p]
  | None => []
  end ++ [WithGlobalDockerdService (service_of c)].

Definition diagnostics : list (@Event Callable Any) :=
  [ SubprocessRun ["pwd"]; LoggerInfo "";
    SubprocessRun ["ls"]; LoggerInfo "";
    SubprocessRun ["cat"; "pyproject.toml"]; LoggerInfo "";
    SubprocessRun ["md5sum"; "pyproject.toml"]; LoggerInfo "";
    SubprocessRun ["md5sum"; "poetry.lock"]; LoggerInfo "";
    SubprocessRun ["diff"; "-u"; "pyproject.toml"; "pyproject.toml.1"];
    LoggerInfo "pyproject diff: ";
    SubprocessRun ["diff"; "-u"; "poetry.lock"; "poetry.lock.1"];
    LoggerInfo "poetry.lock diff: " ].

(** The semaphore given to the task of a connector of language [l]. *)
Definition gate_for (l : ConnectorLanguage.t) : Semaphore :=
  dict_get CONNECTOR_LANGUAGE_TO_FORCED_CONCURRENCY_MAPPING l
    {| sem_scope := CallScope; initial_value := concurrency |}.

Definition task_for h (context : Ref) : Task :=
  {| task_func := connector_pipeline; task_context := context;
     task_semaphore := gate_for (language (connector (h context)));
     task_args := args |}.

(** What one turn of the loop over [contexts] does to the world. *)
Definition launch_step (client : Client) (svc : Service) w (context : Ref) : World :=
  let h1 := update context
              (set_dagger_client
                 (pipeline client (pipeline_name +:+ " - " +:+ technical_name (connector (heap w context)))))
              (heap w) in
  let h2 := update context (set_dockerd_service svc) h1 in
  {| heap := h2;
     scheduled := scheduled w ++ [task_for h2 context];
     trace := (trace w ++ [LoggerInfo "<<<<<<<<<<<<<<< context = "]) ++
              [StartSoon (task_for h2 context)] |}.

Definition launch_heap (client : Client) (svc : Service) h (l : list Ref) : Heap :=
  foldl (λ h context,
           update context (set_dockerd_service svc)
             (update context
                (set_dagger_client
                   (pipeline client (pipeline_name +:+ " - " +:+ technical_name (connector (h context)))))
                h)) h l.

Definition launch_events h (l : list Ref) : list (@Event Callable Any) :=
  flat_map (λ context, [LoggerInfo "<<<<<<<<<<<<<<< context = ";
                        StartSoon (task_for h context)]) l.

(** A context once the loop has gone over it. *)
Definition launched (client : Client) (svc : Service) (c : ConnectorContext) : ConnectorContext :=
  set_dockerd_service svc
    (set_dagger_client (pipeline client (pipeline_name +:+ " - " +:+ technical_name (connector c))) c).

(** The list comprehension of [run_report_complete_pipeline], on a heap. *)
Fixpoint classify h (l : list Ref) : Outcome (list StepResult) :=
  match l with
  | [] => Returned []
  | r :: l' =>
      match (context_to_step_result r (started_from h)).1 with
      | Returned y =>
          match classify h l' with
          | Returned ys => Returned (y :: ys)
          | Raised e => Raised e
          end
      | Raised e => Raised e
      end
  end.

Definition report_for (first : Ref) h (results : list StepResult) : Report :=
  {| name := "Report upload " +:+ report_output_prefix (h first);
     pipeline_context := first;
     steps_results := results;
     filename := "complete" |}.

(** [run_report_complete_pipeline]: its outcome, the heap and the events it
    leaves. *)
Definition report h : Outcome unit * Heap * list (@Event Callable Any) :=
  match contexts !! 0 with
  | None => (Returned tt, h, [])
  | Some first =>
      let h1 := update first
                  (set_pipeline_name ("Report upload " +:+ report_output_prefix (h first))) h in
      match classify h contexts with
      | Returned results =>
          let r := report_for first h results in
          (match report_save env r with Some e => Raised e | None => Returned tt end,
           h1, [ReportInit r; ReportSave r (report_save env r)])
      | Raised e => (Raised e, h1, [])
      end
  end.

(** The events up to the call of [dockerd_service.start()], and up to the end
    of the loop that launches the tasks. *)
Definition configured_events (c : ConnectorContext) : list (@Event Callable Any) :=
  prologue ++ [ConnectionEnter the_config None] ++ configuration_events c ++
  [LoggerInfo "<<<<<<<<<<<<<<< about to start docker"].

Definition launched_events h (first : Ref) : list (@Event Callable Any) :=
  configured_events (h first) ++
  [ServiceStart (service_of (h first)) None;
   LoggerInfo "<<<<<<<<<<<<<<< started docker"] ++
  diagnostics ++ launch_events h contexts.

(** [run_connectors_pipelines]: its outcome, the heap and the events it
    leaves, exit path by exit path. *)
Definition batch h : Outcome (list Ref) * Heap * list (@Event Callable Any) :=
  match connection_enter env the_config with
  | Some e => (Raised e, h, prologue ++ [ConnectionEnter the_config (Some e)])
  | None =>
    match contexts !! 0 with
    | None =>
        (Raised IndexError, h, prologue ++ [ConnectionEnter the_config None; ConnectionExit])
    | Some first =>
      let svc := service_of (h first) in
      match service_start env svc with
      | Some e =>
          (Raised e, h,
           configured_events (h first) ++ [ServiceStart svc (Some e); ConnectionExit])
      | None =>
        match tasks_run env (map (task_for h) contexts)
                (launch_heap the_client svc h contexts) with
        | (h', Some e) =>
            (Raised e, h',
             launched_events h first ++ [TaskGroupExit (Some e); ConnectionExit])
        | (h', None) =>
          let joined :=
            launched_events h first ++
            [TaskGroupExit None; LoggerInfo "<<<<<<<<<<<<<<< done contexts loop"] in
          match service_stop env svc with
          | Some e => (Raised e, h', joined ++ [ServiceStop svc (Some e); ConnectionExit])
          | None =>
            let stopped :=
              joined ++ [ServiceStop svc None;
                         LoggerInfo "<<<<<<<<<<<<<<< about to run_report_complete_pipeline"] in
            match report h' with
            | (Returned _, h'', reported) =>
                (Returned contexts, h'',
                 stopped ++ reported ++
                 [ConnectionExit; LoggerInfo "<<<<<<<<<<<<<<< done..."])
            | (Raised e, h'', reported) =>
                (Raised e, h'', stopped ++ reported ++ [ConnectionExit])
            end
          end
        end
      end
    end
  end.

(** ** Unfolding the module *)

Lemma update_eq (r : Ref) f h : update r f h r = f (h r).
Proof. unfold update. by rewrite decide_True. Qed.

Lemma update_ne (r a : Ref) f h : a ≠ r → update r f h a = h a.
Proof. intros. unfold update. by rewrite decide_False. Qed.

Lemma for_each_foldl {A} (l : list A) (body : A → Run unit) (step : World → A → World) :
  (∀ x w, body x w = (Returned tt, step w x)) →
  ∀ w, for_each l body w = (Returned tt, foldl step w l).
Proof.
  intros Hbody. induction l as [|x l IH]; intros w; [reflexivity|].
  cbn [for_each foldl]. unfold bind. rewrite Hbody. apply IH.
Qed.

(** *** The loop that launches the tasks *)

Lemma launch_heap_at client svc l : ∀ h a,
  launch_heap client svc h l a = if decide (a ∈ l) then launched client svc (h a) else h a.
Proof.
  unfold launch_heap.
  induction l as [|x l IH]; intros h a; cbn [foldl].
  - rewrite decide_False; [done | apply not_elem_of_nil].
  - rewrite IH.
    destruct (decide (a = x)) as [->|Hne].
    + rewrite (decide_True (P := x ∈ x :: l)) by (apply elem_of_cons; by left).
      rewrite !update_eq. by case_decide.
    + rewrite !update_ne by done.
      destruct (decide (a ∈ l)) as [Hin|Hnin].
      * rewrite decide_True; [done | apply elem_of_cons; by right].
      * rewrite decide_False; [done | by rewrite elem_of_cons; intros [?|?]].
Qed.

Lemma launch_heap_connector client svc l h a :
  connector (launch_heap client svc h l a) = connector (h a).
Proof. rewrite launch_heap_at. by case_decide. Qed.

Lemma task_for_ext h h' context :
  connector (h context) = connector (h' context) → task_for h context = task_for h' context.
Proof. unfold task_for. by intros ->. Qed.

Lemma launch_events_ext h h' l :
  (∀ a, connector (h a) = connector (h' a)) → launch_events h l = launch_events h' l.
Proof.
  intros Hc. unfold launch_events. induction l as [|x l IH]; [done|].
  cbn [flat_map]. by rewrite IH, (task_for_ext h h') by done.
Qed.

Lemma launch_world client svc l : ∀ h sch t,
  foldl (launch_step client svc) {| heap := h; scheduled := sch; trace := t |} l =
    {| heap := launch_heap client svc h l;
       scheduled := sch ++ map (task_for h) l;
       trace := t ++ launch_events h l |}.
Proof.
  induction l as [|x l IH]; intros h sch t; cbn [foldl].
  - unfold launch_heap, launch_events; cbn. by rewrite !app_nil_r.
  - unfold launch_step at 2; cbn [heap scheduled trace]. rewrite IH.
    assert (∀ a, connector
                   (update x (set_dockerd_service svc)
                      (update x
                         (set_dagger_client
                            (pipeline client (pipeline_name +:+ " - " +:+ technical_name (connector (h x)))))
                         h) a) = connector (h a)) as Hc
      by (intros a; apply (launch_heap_connector client svc [x])).
    rewrite (task_for_ext _ h x), (launch_events_ext _ h) by done.
    rewrite (map_ext _ (task_for h)) by (intros; by apply task_for_ext).
    cbn [map launch_events flat_map]. by rewrite <- !app_assoc.
Qed.

(** *** The list comprehension *)

Lemma context_to_step_result_eq context w :
  context_to_step_result context w =
    (match state (heap w context) with
     | ContextState.SUCCESSFUL => Returned (result_record context StepStatus.SUCCESS)
     | ContextState.FAILURE | ContextState.ERROR =>
         Returned (result_record context StepStatus.FAILURE)
     | s => Raised (ValueError s)
     end, w).
Proof.
  unfold context_to_step_result, bind, getattr, NoOpStep_run, ret, raise.
  destruct (state (heap w context)) eqn:E;
    repeat (cbv beta iota; rewrite ?E; simpl); reflexivity.
Qed.

Lemma context_to_step_result_started_from context w :
  context_to_step_result context w =
    ((context_to_step_result context (started_from (heap w))).1, w).
Proof. by rewrite !context_to_step_result_eq. Qed.

Lemma comprehension_classify (l : list Ref) w :
  comprehension context_to_step_result l w = (classify (heap w) l, w).
Proof.
  induction l as [|r l IH]; [reflexivity|].
  cbn [comprehension classify]. unfold bind at 1.
  rewrite context_to_step_result_started_from.
  destruct (context_to_step_result r (started_from (heap w))).1; [|reflexivity].
  unfold bind at 1. rewrite IH. by destruct (classify (heap w) l).
Qed.

Lemma classify_ext h h' l :
  (∀ a, state (h a) = state (h' a)) → classify h l = classify h' l.
Proof.
  intros Hs. induction l as [|r l IH]; [done|]. cbn [classify].
  rewrite IH, !context_to_step_result_eq. cbn [heap started_from fst]. by rewrite Hs.
Qed.

Lemma classify_recognized h l :
  Forall (λ r, recognized (state (h r)) = true) l →
  ∃ results, classify h l = Returned results ∧
    Forall2 (λ r res, (context_to_step_result r (started_from h)).1 = Returned res) l results.
Proof.
  induction 1 as [|r l Hr _ (results & IH & Hall)]; [by exists []; split; constructor|].
  cbn [classify]. rewrite IH.
  destruct (context_to_step_result r (started_from h)).1 as [res|e] eqn:Hres.
  - exists (res :: results). split; [done|]. by constructor.
  - rewrite context_to_step_result_eq in Hres. cbn [heap started_from fst] in Hres.
    by destruct (state (h r)).
Qed.

Lemma classify_unrecognized h l :
  Exists (λ r, recognized (state (h r)) = false) l →
  ∃ s, recognized s = false ∧ classify h l = Raised (ValueError s).
Proof.
  induction l as [|r l IH]; intros Hex; [by apply Exists_nil in Hex|].
  cbn [classify]. rewrite context_to_step_result_eq. cbn [heap started_from fst].
  destruct (recognized (state (h r))) eqn:Hr.
  - apply Exists_cons in Hex as [Hex|Hex]; [congruence|].
    destruct (IH Hex) as (s & Hs & ->). exists s. by destruct (state (h r)).
  - exists (state (h r)). by destruct (state (h r)).
Qed.

(** *** The two functions *)

Lemma run_report_complete_pipeline_unfold client h sch t :
  run_report_complete_pipeline env client contexts
    {| heap := h; scheduled := sch; trace := t |} =
  let '(o, h', reported) := report h in
  (o, {| heap := h'; scheduled := sch; trace := t ++ reported |}).
Proof.
  unfold report, run_report_complete_pipeline.
  destruct contexts as [|first rest] eqn:Hc; [cbn; by rewrite app_nil_r|].
  rewrite <- Hc. unfold subscript. replace (contexts !! 0) with (Some first) by (by rewrite Hc).
  unfold bind at 1. unfold ret at 1. unfold bind at 1. unfold getattr at 1.
  unfold bind at 1. unfold setattr at 1. unfold bind at 1.
  rewrite comprehension_classify. cbn [heap].
  rewrite (classify_ext _ h).
  2:{ intros a. unfold update. by case_decide; subst. }
  destruct (classify h contexts) as [results|e]; [|by rewrite app_nil_r].
  unfold bind, emit, await, ret, raise, emit, report_for; cbn.
  rewrite <- app_assoc; cbn [app].
  by destruct (report_save env _).
Qed.

Ltac exec :=
  cbv beta iota zeta delta
    [run_connectors_pipelines with_connection finally with_task_group
     info_subprocess info await set_secret with_global_dockerd_service
     subscript start_soon getattr setattr emit ret raise bind
     heap scheduled trace].

Ltac flatten := repeat (progress (rewrite <- ?app_assoc; cbn [app])).

Ltac tidy := cbv beta iota zeta; flatten.

Ltac leaf :=
  f_equal; try reflexivity; f_equal; try reflexivity; flatten; reflexivity.

Lemma run_connectors_pipelines_unfold h t :
  run_connectors_pipelines env contexts connector_pipeline pipeline_name concurrency
    dagger_logs_path execute_timeout args {| heap := h; scheduled := []; trace := t |} =
  let '(o, h', evs) := batch h in
  (o, {| heap := h'; scheduled := []; trace := t ++ evs |}).
Proof.
  unfold batch, launched_events, configured_events, configuration_events,
    service_of, credentials_of, prologue, diagnostics, the_client, the_config.
  exec.
  destruct dagger_logs_path as [path|].
  all: destruct (connection_enter env _) as [e|]; [leaf|].
  all: destruct (contexts !! 0) as [first|]; [|leaf].
  all: destruct (docker_hub_username (h first)) as [u|],
         (docker_hub_password (h first)) as [p|].
  all: try destruct (truthy (Some u) && truthy (Some p)).
  all: match goal with
       | |- context [service_start env ?s] => destruct (service_start env s) as [e|]
       end; [leaf|].
  all: match goal with
       | |- context [for_each contexts
                       (λ x w, (_, {| heap := update x (set_dockerd_service ?s)
                                                (update x (set_dagger_client (pipeline ?c _)) _);
                                      scheduled := _; trace := _ |}))] =>
           rewrite (for_each_foldl contexts _ (launch_step c s))
             by (intros ? []; reflexivity)
       end.
  all: rewrite launch_world; tidy.
  all: match goal with
       | |- context [tasks_run env ?a ?b] => destruct (tasks_run env a b) as [h' [e|]]
       end; [leaf|].
  all: tidy.
  all: match goal with
       | |- context [service_stop env ?s] => destruct (service_stop env s) as [e|]
       end; [leaf|].
  all: tidy.
  all: rewrite run_report_complete_pipeline_unfold.
  all: destruct (report h') as [[[[]|e] h''] reported]; tidy; leaf.
Qed.

(** ** What the pieces of a trace hold *)

Lemma lookup_0_None {A} (l : list A) : l !! 0 = None → l = [].
Proof. by destruct l. Qed.


Lemma started_tasks_app t1 t2 :
  started_tasks (t1 ++ t2) = started_tasks t1 ++ started_tasks t2.
Proof. apply omap_app. Qed.

Lemma service_stops_app t1 t2 :
  service_stops (t1 ++ t2) = service_stops t1 ++ service_stops t2.
Proof. apply omap_app. Qed.

Lemma task_group_exits_app t1 t2 :
  task_group_exits (t1 ++ t2) = task_group_exits t1 ++ task_group_exits t2.
Proof. apply omap_app. Qed.

Lemma service_configuration_app t1 t2 :
  service_configuration (t1 ++ t2) = service_configuration t1 ++ service_configuration t2.
Proof. apply omap_app. Qed.

Lemma started_tasks_prologue : started_tasks prologue = [].
Proof. unfold prologue. by destruct dagger_logs_path. Qed.

Lemma service_stops_prologue : service_stops prologue = [].
Proof. unfold prologue. by destruct dagger_logs_path. Qed.

Lemma task_group_exits_prologue : task_group_exits prologue = [].
Proof. unfold prologue. by destruct dagger_logs_path. Qed.

Lemma service_configuration_prologue : service_configuration prologue = [].
Proof. unfold prologue. by destruct dagger_logs_path. Qed.

Lemma started_tasks_configuration c : started_tasks (configuration_events c) = [].
Proof. unfold configuration_events. by destruct (credentials_of c) as [[]|]. Qed.

Lemma service_stops_configuration c : service_stops (configuration_events c) = [].
Proof. unfold configuration_events. by destruct (credentials_of c) as [[]|]. Qed.

Lemma task_group_exits_configuration c : task_group_exits (configuration_events c) = [].
Proof. unfold configuration_events. by destruct (credentials_of c) as [[]|]. Qed.

Lemma service_configuration_configuration c :
  service_configuration (configuration_events c) = configuration_events c.
Proof. unfold configuration_events. by destruct (credentials_of c) as [[]|]. Qed.

Lemma started_tasks_launch h l : started_tasks (launch_events h l) = map (task_for h) l.
Proof. induction l as [|x l IH]; [done|]. cbn. by rewrite <- IH. Qed.

Lemma service_stops_launch h l : service_stops (launch_events h l) = [].
Proof. by induction l. Qed.

Lemma task_group_exits_launch h l : task_group_exits (launch_events h l) = [].
Proof. by induction l. Qed.

Lemma service_configuration_launch h l : service_configuration (launch_events h l) = [].
Proof. by induction l. Qed.

Lemma started_tasks_report h : started_tasks (report h).2 = [].
Proof.
  unfold report. destruct (contexts !! 0); [|done]. by destruct (classify h contexts).
Qed.

Lemma service_stops_report h : service_stops (report h).2 = [].
Proof.
  unfold report. destruct (contexts !! 0); [|done]. by destruct (classify h contexts).
Qed.

Lemma task_group_exits_report h : task_group_exits (report h).2 = [].
Proof.
  unfold report. destruct (contexts !! 0); [|done]. by destruct (classify h contexts).
Qed.

Lemma service_configuration_report h : service_configuration (report h).2 = [].
Proof.
  unfold report. destruct (contexts !! 0); [|done]. by destruct (classify h contexts).
Qed.

Create Rewrite HintDb trace_pieces.
Hint Rewrite started_tasks_app service_stops_app task_group_exits_app
  service_configuration_app
  started_tasks_prologue service_stops_prologue task_group_exits_prologue
  service_configuration_prologue
  started_tasks_configuration service_stops_configuration
  task_group_exits_configuration service_configuration_configuration
  started_tasks_launch service_stops_launch task_group_exits_launch
  service_configuration_launch : trace_pieces.

Lemma elem_of_started_tasks t task : StartSoon task ∈ t → task ∈ started_tasks t.
Proof. intros H. apply list_elem_of_omap. exists (StartSoon task). by split. Qed.

Lemma elem_of_service_stops t svc r : ServiceStop svc r ∈ t → (svc, r) ∈ service_stops t.
Proof. intros H. apply list_elem_of_omap. exists (ServiceStop svc r). by split. Qed.

Lemma elem_of_task_group_exits t r : TaskGroupExit r ∈ t ↔ r ∈ task_group_exits t.
Proof.
  split.
  - intros H. apply list_elem_of_omap. exists (TaskGroupExit r). by split.
  - intros H. apply list_elem_of_omap in H as (e & He & Heq). by destruct e; simplify_eq.
Qed.

(** An event that is not in [before] and is not the marker: where it is in
    [before ++ marker :: after], the marker comes earlier. *)
Lemma lookup_after_marker (before after : list (@Event Callable Any)) marker e i :
  e ∉ before → e ≠ marker →
  (before ++ marker :: after) !! i = Some e →
  ∃ j, j < i ∧ (before ++ marker :: after) !! j = Some marker.
Proof.
  intros Hnot Hne Hi. exists (length before). split.
  - destruct (decide (i < length before)) as [Hlt|Hge].
    + rewrite lookup_app_l in Hi by done. destruct Hnot.
      apply list_elem_of_lookup. eauto.
    + destruct (decide (i = length before)) as [->|]; [|lia].
      rewrite list_lookup_middle in Hi by done. congruence.
  - by apply list_lookup_middle.
Qed.

(** ** The outcome classifier *)

(** C2.  [context_to_step_result] gives the result record of the context with
    status SUCCESS when the context is SUCCESSFUL, with status FAILURE when it
    is in FAILURE or in ERROR, and raises ValueError for every other state,
    PENDING among them; it changes nothing. *)
Theorem context_to_step_result_classifies (context : Ref) w :
  (state (heap w context) = ContextState.SUCCESSFUL →
     context_to_step_result context w =
       (Returned (result_record context StepStatus.SUCCESS), w)) ∧
  (state (heap w context) = ContextState.FAILURE ∨
   state (heap w context) = ContextState.ERROR →
     context_to_step_result context w =
       (Returned (result_record context StepStatus.FAILURE), w)) ∧
  (state (heap w context) ≠ ContextState.SUCCESSFUL →
   state (heap w context) ≠ ContextState.FAILURE →
   state (heap w context) ≠ ContextState.ERROR →
     context_to_step_result context w =
       (Raised (ValueError (state (heap w context))), w)) ∧
  (state (heap w context) = ContextState.PENDING →
     context_to_step_result context w = (Raised (ValueError ContextState.PENDING), w)).
Proof.
  rewrite context_to_step_result_eq.
  repeat split.
  - by intros ->.
  - by intros [-> | ->].
  - by destruct (state (heap w context)).
  - by intros ->.
Qed.

(** ** The completion report *)

(** C3.  When a context of the batch is in a state the classifier does not
    recognise, [run_report_complete_pipeline] raises ValueError out of the
    list comprehension: no report is built and none is saved, the trace is
    left as it was. *)
Theorem unrecognized_state_aborts_report client (context : Ref) w :
  context ∈ contexts →
  recognized (state (heap w context)) = false →
  ∃ s, recognized s = false ∧
       outcome (run_report_complete_pipeline env client contexts w) = Raised (ValueError s) ∧
       events (run_report_complete_pipeline env client contexts w) = trace w.
Proof.
  intros Hin Hbad. destruct w as [h sch t]. cbn [heap] in Hbad.
  unfold outcome, events. rewrite run_report_complete_pipeline_unfold. unfold report.
  destruct (contexts !! 0) as [first|] eqn:Hfirst.
  - destruct (classify_unrecognized h contexts) as (s & Hs & ->).
    { apply Exists_exists. eauto. }
    exists s. cbn. by rewrite app_nil_r.
  - apply lookup_0_None in Hfirst. rewrite Hfirst in Hin. by apply elem_of_nil in Hin.
Qed.

(** C4.  When the batch is not empty and every context is in a recognised
    state, [run_report_complete_pipeline] builds one report and hands that
    report to [save]; the report has one result per context, and its i-th
    result is what the classifier gives for the i-th context of the input
    list, whatever heap the tasks left. *)
Theorem report_results_in_input_order client (first : Ref) w :
  contexts !! 0 = Some first →
  Forall (λ context, recognized (state (heap w context)) = true) contexts →
  ∃ r,
    events (run_report_complete_pipeline env client contexts w) =
      trace w ++ [ReportInit r; ReportSave r (report_save env r)] ∧
    pipeline_context r = first ∧
    length (steps_results r) = length contexts ∧
    ∀ i context, contexts !! i = Some context →
      ∃ result, steps_results r !! i = Some result ∧
                outcome (context_to_step_result context w) = Returned result.
Proof.
  intros Hfirst Hall. destruct w as [h sch t]. cbn [heap] in Hall.
  unfold events. rewrite run_report_complete_pipeline_unfold. unfold report. rewrite Hfirst.
  destruct (classify_recognized h contexts Hall) as (results & -> & Hres).
  exists (report_for first h results). cbv beta iota zeta. cbn [snd trace].
  split; [done|]. split; [done|]. split.
  - cbn [report_for steps_results]. symmetry. by eapply Forall2_length.
  - intros i context Hi.
    destruct (Forall2_lookup_l _ _ _ _ _ Hres Hi) as (result & Hr & Hc).
    exists result. split; [done|].
    unfold outcome. by rewrite context_to_step_result_started_from.
Qed.

(** ** The batch *)

Lemma started_tasks_diagnostics : started_tasks diagnostics = [].
Proof. reflexivity. Qed.

Lemma service_stops_diagnostics : service_stops diagnostics = [].
Proof. reflexivity. Qed.

Lemma task_group_exits_diagnostics : task_group_exits diagnostics = [].
Proof. reflexivity. Qed.

Lemma service_configuration_diagnostics : service_configuration diagnostics = [].
Proof. reflexivity. Qed.

Hint Rewrite started_tasks_diagnostics service_stops_diagnostics
  task_group_exits_diagnostics service_configuration_diagnostics : trace_pieces.

Ltac pieces :=
  autorewrite with trace_pieces;
  cbn [started_tasks service_stops task_group_exits service_configuration
       omap list_omap app];
  rewrite ?app_nil_r.

Lemma started_tasks_configured c : started_tasks (configured_events c) = [].
Proof. unfold configured_events. by pieces. Qed.

Lemma service_stops_configured c : service_stops (configured_events c) = [].
Proof. unfold configured_events. by pieces. Qed.

Lemma task_group_exits_configured c : task_group_exits (configured_events c) = [].
Proof. unfold configured_events. by pieces. Qed.

Lemma service_configuration_configured c :
  service_configuration (configured_events c) = configuration_events c.
Proof. unfold configured_events. by pieces. Qed.

Hint Rewrite started_tasks_configured service_stops_configured
  task_group_exits_configured service_configuration_configured : trace_pieces.

Lemma started_tasks_launched h first :
  started_tasks (launched_events h first) = map (task_for h) contexts.
Proof. unfold launched_events. by pieces. Qed.

Lemma service_stops_launched h first : service_stops (launched_events h first) = [].
Proof. unfold launched_events. by pieces. Qed.

Lemma task_group_exits_launched h first : task_group_exits (launched_events h first) = [].
Proof. unfold launched_events. by pieces. Qed.

Lemma service_configuration_launched h first :
  service_configuration (launched_events h first) = configuration_events (h first).
Proof. unfold launched_events. by pieces. Qed.

Hint Rewrite started_tasks_launched service_stops_launched
  task_group_exits_launched service_configuration_launched : trace_pieces.

Local Abbreviation the_run h :=
  (run_connectors_pipelines env contexts connector_pipeline pipeline_name concurrency
     dagger_logs_path execute_timeout args (started_from h)).

Lemma run_batch h : (outcome (the_run h), final_heap (the_run h), events (the_run h)) = batch h.
Proof.
  unfold outcome, final_heap, events, started_from.
  rewrite run_connectors_pipelines_unfold. by destruct (batch h) as [[o h'] evs].
Qed.

Lemma events_batch h : events (the_run h) = (batch h).2.
Proof. by rewrite <- run_batch. Qed.

Lemma outcome_batch h : outcome (the_run h) = (batch h).1.1.
Proof. by rewrite <- run_batch. Qed.

Lemma final_heap_batch h : final_heap (the_run h) = (batch h).1.2.
Proof. by rewrite <- run_batch. Qed.

(** Splits [batch h] into its exit paths; the events of the report come with
    what they hold. *)
Ltac exit_paths h :=
  unfold batch;
  destruct (connection_enter env the_config) as [?e|] eqn:?Hconnect;
  [|destruct (contexts !! 0) as [first|] eqn:?Hfirst;
    [destruct (service_start env (service_of (h first))) as [?e|] eqn:?Hstarted;
     [|destruct (tasks_run env (map (task_for h) contexts)
                   (launch_heap the_client (service_of (h first)) h contexts))
         as [h' [?e|]] eqn:?Hjoin;
       [|destruct (service_stop env (service_of (h first))) as [?e|] eqn:?Hstopped;
         [|pose proof (started_tasks_report h') as ?Hrep_tasks;
           pose proof (service_stops_report h') as ?Hrep_stops;
           pose proof (task_group_exits_report h') as ?Hrep_exits;
           pose proof (service_configuration_report h') as ?Hrep_conf;
           destruct (report h') as [[[[]|?e] h''] reported] eqn:?Hreport]]]|]];
  cbn [fst snd] in *.



Lemma no_start_soon t (task : Task) i :
  t !! i = Some (StartSoon task) → started_tasks t = [] → False.
Proof.
  intros Hi Ht. apply list_elem_of_lookup_2, elem_of_started_tasks in Hi.
  rewrite Ht in Hi. by apply elem_of_nil in Hi.
Qed.

Lemma no_service_stop t svc raised i :
  t !! i = Some (ServiceStop svc raised) → service_stops t = [] → False.
Proof.
  intros Hi Ht. apply list_elem_of_lookup_2, elem_of_service_stops in Hi.
  rewrite Ht in Hi. by apply elem_of_nil in Hi.
Qed.

Lemma no_task_group_exit t r : TaskGroupExit r ∈ t → task_group_exits t = [] → False.
Proof.
  intros Hin Ht. apply elem_of_task_group_exits in Hin.
  rewrite Ht in Hin. by apply elem_of_nil in Hin.
Qed.

Lemma one_task_group_exit t r r' :
  TaskGroupExit r' ∈ t → task_group_exits t = [r] → r' = r.
Proof.
  intros Hin Ht. apply elem_of_task_group_exits in Hin.
  rewrite Ht in Hin. by apply list_elem_of_singleton in Hin.
Qed.

Lemma stop_after_join (before after : list Event) i svc raised :
  service_stops before = [] →
  (before ++ TaskGroupExit None :: after) !! i = Some (ServiceStop svc raised) →
  ∃ j, j < i ∧ (before ++ TaskGroupExit None :: after) !! j = Some (TaskGroupExit None).
Proof.
  intros Hb Hi. refine (lookup_after_marker before after _ _ i _ _ Hi); [|done].
  intros Hin. apply list_elem_of_lookup_1 in Hin as [k Hk]. by eapply no_service_stop.
Qed.

Lemma launch_after_start (before after : list Event) i svc (task : Task) :
  started_tasks before = [] →
  (before ++ ServiceStart svc None :: after) !! i = Some (StartSoon task) →
  ∃ j, j < i ∧ (before ++ ServiceStart svc None :: after) !! j = Some (ServiceStart svc None).
Proof.
  intros Hb Hi. refine (lookup_after_marker before after _ _ i _ _ Hi); [|done].
  intros Hin. apply list_elem_of_lookup_1 in Hin as [k Hk]. by eapply no_start_soon.
Qed.



(** C6.  In the trace of a call, every [start_soon] comes after a call of
    [dockerd_service.start()] that returned: no task is launched before the
    shared service has started. *)
Theorem service_started_before_launch h i (task : Task) :
  events (the_run h) !! i = Some (StartSoon task) →
  ∃ j svc, j < i ∧ events (the_run h) !! j = Some (ServiceStart svc None).
Proof.
  rewrite events_batch. exit_paths h; intros Hi.
  all: try (by apply no_start_soon in Hi; [|by pieces]).
  all: unfold launched_events in *; rewrite <- ?app_assoc in *; cbn [app] in *.
  all: destruct (launch_after_start _ _ _ _ _ (started_tasks_configured _) Hi)
         as (j & Hj & Hm).
  all: by exists j, (service_of (h first)).
Qed.

(** C7, as the code has it.  [dockerd_service.stop()] is called at most once,
    and only after the task group was left with no task having raised; it is
    called once whenever that happens.  When the task group raises, the call
    raises the same exception and the service is not stopped. *)
Theorem service_stopped_once_after_join h :
  (∀ i svc raised,
     events (the_run h) !! i = Some (ServiceStop svc raised) →
     ∃ j, j < i ∧ events (the_run h) !! j = Some (TaskGroupExit None)) ∧
  (length (service_stops (events (the_run h))) ≤ 1)%nat ∧
  (TaskGroupExit None ∈ events (the_run h) →
     length (service_stops (events (the_run h))) = 1) ∧
  (∀ e, TaskGroupExit (Some e) ∈ events (the_run h) →
     service_stops (events (the_run h)) = [] ∧ outcome (the_run h) = Raised e).
Proof.
  rewrite events_batch, outcome_batch. exit_paths h.
  all: split;
    [intros i svc raised Hi;
     first [ by apply no_service_stop in Hi; [|by pieces]
           | rewrite <- ?app_assoc in *; cbn [app] in *;
             apply (stop_after_join (launched_events h first)) in Hi;
             [done | apply service_stops_launched] ]
    |].
  all: split; [pieces; rewrite ?Hrep_stops; pieces; cbn [length]; lia|].
  all: split;
    [intros Hin;
     first [ by apply no_task_group_exit in Hin; [|by pieces]
           | by apply (one_task_group_exit _ (Some e)) in Hin; [|by pieces]
           | pieces; rewrite ?Hrep_stops; by pieces ]
    |].
  all: intros e' Hin.
  all: first [ by apply no_task_group_exit in Hin; [|by pieces]
             | apply (one_task_group_exit _ (Some e)) in Hin; [|by pieces];
               split; [by pieces | congruence]
             | by apply (one_task_group_exit _ None) in Hin;
               [|pieces; rewrite ?Hrep_exits; by pieces] ].
Qed.

Lemma service_configuration_batch h head :
  connection_enter env the_config = None →
  contexts !! 0 = Some head →
  service_configuration (batch h).2 = configuration_events (h head).
Proof.
  intros Hconn Hhead. exit_paths h; simplify_eq.
  all: pieces; rewrite ?Hrep_conf; by pieces.
Qed.

(** C10.  The shared service is configured from the first context alone.
    When that context has a user name and a password that are both truthy,
    the two secrets are set on the client and the service is built with them;
    otherwise no secret is set and the service is built without credentials.
    Nothing of the other contexts enters the configuration. *)
Theorem service_configured_from_first_context h (head : Ref) :
  connection_enter env the_config = None →
  contexts !! 0 = Some head →
  service_configuration (events (the_run h)) =
    if truthy (docker_hub_username (h head)) && truthy (docker_hub_password (h head))
    then
      let username_secret :=
        {| secret_name := "DOCKER_HUB_USERNAME";
           plaintext := default "" (docker_hub_username (h head)) |} in
      let password_secret :=
        {| secret_name := "DOCKER_HUB_PASSWORD";
           plaintext := default "" (docker_hub_password (h head)) |} in
      [SetSecret username_secret; SetSecret password_secret;
       WithGlobalDockerdService
         {| service_client := the_client;
            registry_credentials := Some (username_secret, password_secret) |}]
    else
      [WithGlobalDockerdService
         {| service_client := the_client; registry_credentials := None |}].
Proof.
  intros Hconn Hhead. rewrite events_batch, (service_configuration_batch h head) by done.
  unfold configuration_events, service_of, credentials_of.
  destruct (docker_hub_username (h head)) as [u|], (docker_hub_password (h head)) as [p|];
    try reflexivity.
  - by destruct (truthy (Some u) && truthy (Some p)).
  - by rewrite andb_false_r.
Qed.

(** ** What the module writes *)



(** ** More of what a trace holds *)

Lemma omap_quiet {B} (f : @Event Callable Any → option B) (P : Event → Prop) (l : list Event) :
  Forall P l → (∀ e, P e → f e = None) → omap f l = [].
Proof.
  induction 1 as [|e l He _ IH]; intros Hq; [done|].
  cbn. rewrite (Hq e He). by apply IH.
Qed.

Lemma prologue_logging : Forall logging prologue.
Proof. unfold prologue. destruct dagger_logs_path; by repeat constructor. Qed.

Lemma configuration_configuring c : Forall configuring (configuration_events c).
Proof.
  unfold configuration_events. destruct (credentials_of c) as [[]|]; by repeat constructor.
Qed.

Lemma diagnostics_logging : Forall logging diagnostics.
Proof. by repeat constructor. Qed.

Lemma launch_launching h l : Forall launching (launch_events h l).
Proof. induction l as [|x l IH]; [constructor|]. cbn. by repeat constructor. Qed.

Lemma created_files_prologue :
  created_files prologue = match dagger_logs_path with None => [] | Some path => [path] end.
Proof. unfold prologue. by destruct dagger_logs_path. Qed.

Lemma created_files_app t1 t2 :
  created_files (t1 ++ t2) = created_files t1 ++ created_files t2.
Proof. apply omap_app. Qed.

Lemma omap_elem_of {B} (f : @Event Callable Any → option B) (l : list Event) e b :
  e ∈ l → f e = Some b → b ∈ omap f l.
Proof. intros Hin Hf. apply list_elem_of_omap. eauto. Qed.

Lemma omap_lookup {B} (f : @Event Callable Any → option B) (l : list Event) i e b :
  l !! i = Some e → f e = Some b → b ∈ omap f l.
Proof. intros Hi. apply omap_elem_of. by eapply list_elem_of_lookup_2. Qed.

Ltac quiet := intros [] H; solve [reflexivity | destruct H].

(** Computes what a projection holds of the events of an exit path. *)
Ltac project :=
  autorewrite with trace_pieces;
  unfold launched_events, configured_events;
  rewrite ?created_files_app, ?created_files_prologue;
  unfold service_starts, connection_exits, entered_connections, created_files,
    built_reports, saved_reports, collaborator_errors,
    started_tasks, service_stops, task_group_exits;
  rewrite ?omap_app;
  repeat match goal with
    | |- context [omap ?f prologue] =>
        rewrite (omap_quiet f _ _ prologue_logging) by quiet
    | |- context [omap ?f (configuration_events ?c)] =>
        rewrite (omap_quiet f _ _ (configuration_configuring c)) by quiet
    | |- context [omap ?f diagnostics] =>
        rewrite (omap_quiet f _ _ diagnostics_logging) by quiet
    | |- context [omap ?f (launch_events ?h ?l)] =>
        rewrite (omap_quiet f _ _ (launch_launching h l)) by quiet
    end;
  cbn [omap list_omap app]; rewrite ?app_nil_r.

(** Splits [batch h] into its exit paths, those of the report among them. *)
Ltac all_exit_paths h :=
  unfold batch;
  destruct (connection_enter env the_config) as [?e|] eqn:?Hconnect;
  [|destruct (contexts !! 0) as [first|] eqn:?Hfirst;
    [destruct (service_start env (service_of (h first))) as [?e|] eqn:?Hstarted;
     [|destruct (tasks_run env (map (task_for h) contexts)
                   (launch_heap the_client (service_of (h first)) h contexts))
         as [h' [?e|]] eqn:?Hjoin;
       [|destruct (service_stop env (service_of (h first))) as [?e|] eqn:?Hstopped;
         [|unfold report; rewrite ?Hfirst;
           destruct (classify h' contexts) as [results|?e] eqn:?Hclassify;
           [destruct (report_save env (report_for first h' results)) as [?e|] eqn:?Hsave|]]]]|]];
  cbv beta iota zeta; cbn [fst snd].

(** ** What every call does *)


Lemma elem_of_service_starts t svc r : ServiceStart svc r ∈ t → (svc, r) ∈ service_starts t.
Proof. intros H. by apply (omap_elem_of _ _ _ _ H). Qed.

Lemma elem_of_built_reports t r : ReportInit r ∈ t → r ∈ built_reports t.
Proof. intros H. by apply (omap_elem_of _ _ _ _ H). Qed.

(** In [before ++ marker :: after], an event that is neither in [before] nor
    the marker comes after the marker; one that is neither in [after] nor the
    marker comes before every marker that is not in [before]. *)
Lemma lookup_after_split (t before mid after : list (@Event Callable Any)) marker e i :
  t = before ++ mid ++ marker :: after →
  e ∉ before ++ mid → e ≠ marker → t !! i = Some e →
  ∃ j, j < i ∧ t !! j = Some marker.
Proof. intros ->. rewrite app_assoc. apply lookup_after_marker. Qed.

Lemma lookup_before_split (t before mid after : list (@Event Callable Any)) marker e i j :
  t = before ++ mid ++ marker :: after →
  e ∉ after → e ≠ marker → marker ∉ before ++ mid →
  t !! i = Some e → t !! j = Some marker → i < j.
Proof.
  intros ->. rewrite app_assoc. generalize (before ++ mid). clear before mid.
  intros before Hafter Hne Hbefore Hi Hj.
  assert (length before ≤ j)%nat as Hle.
  { destruct (decide (j < length before)) as [Hlt|]; [|lia].
    rewrite lookup_app_l in Hj by done. destruct Hbefore.
    by eapply list_elem_of_lookup_2. }
  destruct (decide (i < length before)) as [|Hge]; [lia|].
  destruct (decide (i = length before)) as [->|Hne'].
  - rewrite list_lookup_middle in Hi by done. congruence.
  - rewrite lookup_app_r in Hi by lia.
    destruct (i - length before) as [|k] eqn:Hk; [lia|]. cbn in Hi.
    destruct Hafter. by eapply list_elem_of_lookup_2.
Qed.

Lemma classify_returned h l results :
  classify h l = Returned results →
  Forall (λ a, recognized (state (h a)) = true) l ∧ length results = length l.
Proof.
  revert results. induction l as [|r l IH]; intros results Hc; cbn [classify] in Hc.
  - by simplify_eq.
  - rewrite context_to_step_result_eq in Hc. cbn [heap started_from fst] in Hc.
    destruct (recognized (state (h r))) eqn:Hr; [|by destruct (state (h r))].
    destruct (classify h l) as [ys|] eqn:Hl; [|by destruct (state (h r))].
    destruct (IH ys eq_refl) as [Hall Hlen].
    split; [by constructor|].
    destruct (state (h r)); simplify_eq; cbn; by rewrite Hlen.
Qed.



Lemma classify_update_pipeline_name h r v l :
  classify (update r (set_pipeline_name v) h) l = classify h l.
Proof. apply classify_ext. intros a. unfold update. by case_decide; subst. Qed.

Ltac suffix_of_trace :=
  repeat apply suffix_app_r;
  first [ reflexivity | by eexists [_] | by eexists [_; _] | by eexists [_; _; _] ].

(** Turns a membership of an event in the events of an exit path into a
    membership in what the projection [lemma] holds of them. *)
Ltac member_of lemma H := apply lemma in H; revert H; project; intros H.

Ltac no_member H :=
  first [ by apply elem_of_nil in H
        | by apply list_elem_of_singleton in H ].

(** X1.  The connection is left exactly once in every call that opened it,
    and never in a call that did not: leaving it is the last thing the call
    does when it raises, and the last but the closing log line when it
    returns. *)
Theorem connection_left_on_every_path h :
  connection_exits (events (the_run h)) =
    match connection_enter env the_config with
    | None => [()]
    | Some _ => []
    end ∧
  (connection_enter env the_config = None →
   match outcome (the_run h) with
   | Raised _ => [ConnectionExit] `suffix_of` events (the_run h)
   | Returned _ =>
       [ConnectionExit; LoggerInfo "<<<<<<<<<<<<<<< done..."]
         `suffix_of` events (the_run h)
   end).
Proof.
  rewrite events_batch, outcome_batch. all_exit_paths h.
  all: split; [by project | intros ?; try done; suffix_of_trace].
Qed.

(** X2.  When [dockerd_service.start()] raises, the call raises the same
    exception at once: no task is launched, the service is not stopped, no
    report is built, no context has been written to, and the connection is
    left. *)
Theorem start_failure_aborts_before_launch h svc e :
  ServiceStart svc (Some e) ∈ events (the_run h) →
  outcome (the_run h) = Raised e ∧
  started_tasks (events (the_run h)) = [] ∧
  service_stops (events (the_run h)) = [] ∧
  built_reports (events (the_run h)) = [] ∧
  final_heap (the_run h) = h ∧
  connection_exits (events (the_run h)) = [()].
Proof.
  rewrite events_batch, outcome_batch, final_heap_batch. all_exit_paths h; intros Hin.
  all: member_of elem_of_service_starts Hin; try no_member Hin.
  apply list_elem_of_singleton in Hin. simplify_eq.
  repeat split; by project.
Qed.

(** X3.  When [dockerd_service.stop()] raises, the call raises the same
    exception and [run_report_complete_pipeline] is not reached: no report is
    built or saved, though every task has finished; the connection is
    left. *)
Theorem stop_failure_prevents_the_report h svc e :
  ServiceStop svc (Some e) ∈ events (the_run h) →
  outcome (the_run h) = Raised e ∧
  task_group_exits (events (the_run h)) = [None] ∧
  built_reports (events (the_run h)) = [] ∧
  saved_reports (events (the_run h)) = [] ∧
  connection_exits (events (the_run h)) = [()].
Proof.
  rewrite events_batch, outcome_batch. all_exit_paths h; intros Hin.
  all: member_of elem_of_service_stops Hin; try no_member Hin.
  apply list_elem_of_singleton in Hin. simplify_eq.
  repeat split; by project.
Qed.


(** X5.  A report is built only after [dockerd_service.stop()] has returned:
    in the trace of a call every [Report(...)] comes after a stop of the
    service that did not raise. *)
Theorem report_built_after_service_stopped h i r :
  events (the_run h) !! i = Some (ReportInit r) →
  ∃ j svc, j < i ∧ events (the_run h) !! j = Some (ServiceStop svc None).
Proof.
  rewrite events_batch. all_exit_paths h; intros Hi.
  all: try (apply list_elem_of_lookup_2 in Hi;
            member_of elem_of_built_reports Hi; by no_member Hi).
  all: flatten; rewrite <- ?app_assoc in Hi; cbn [app] in Hi.
  all: match type of Hi with
       | (?before ++ ?rest) !! _ = _ =>
           destruct (lookup_after_split (before ++ rest) before
                       [TaskGroupExit None;
                        LoggerInfo "<<<<<<<<<<<<<<< done contexts loop"]
                       _ (ServiceStop (service_of (h first)) None) (ReportInit r) i eq_refl)
             as (j & Hj & Hm); [|done|exact Hi|by exists j, (service_of (h first))]
       end.
  all: intros Hin; member_of elem_of_built_reports Hin; by no_member Hin.
Qed.

(** X6.  Every task is launched before the task group is left: in the trace
    of a call each [start_soon] comes before the join, and none comes
    after. *)
Theorem tasks_launched_before_join h i j (task : Task) r :
  events (the_run h) !! i = Some (StartSoon task) →
  events (the_run h) !! j = Some (TaskGroupExit r) →
  i < j.
Proof.
  rewrite events_batch. all_exit_paths h; intros Hi Hj.
  all: try (apply list_elem_of_lookup_2 in Hj;
            member_of elem_of_task_group_exits Hj; by no_member Hj).
  all: rewrite <- ?app_assoc in Hi, Hj; cbn [app] in Hi, Hj.
  all: match type of Hj with
       | (?before ++ TaskGroupExit ?r0 :: ?after) !! _ = _ =>
           assert (r = r0) as ->
             by (pose proof Hj as Hin; apply list_elem_of_lookup_2 in Hin;
                 member_of elem_of_task_group_exits Hin;
                 by apply list_elem_of_singleton in Hin);
           apply (lookup_before_split (before ++ TaskGroupExit r0 :: after)
                    before [] after (TaskGroupExit r0) (StartSoon task) i j eq_refl);
           [| done | | exact Hi | exact Hj]
       end.
  all: intros Hin;
       first [ member_of elem_of_started_tasks Hin; by no_member Hin
             | member_of elem_of_task_group_exits Hin; by no_member Hin ].
Qed.


Lemma dockerd_service_update_pipeline_name r v h a :
  dockerd_service (update r (set_pipeline_name v) h a) = dockerd_service (h a).
Proof. unfold update. by case_decide. Qed.

Lemma dagger_client_update_pipeline_name r v h a :
  dagger_client (update r (set_pipeline_name v) h a) = dagger_client (h a).
Proof. unfold update. by case_decide. Qed.


(** X8.  When a call returns, it returns the list it was given, and by then
    the service was started once and stopped once, one task per context was
    launched and the task group was left with no task having raised, and one
    report, with one result per context, was built and saved. *)
Theorem normal_return_means_report_saved h l :
  outcome (the_run h) = Returned l →
  l = contexts ∧
  ∃ svc report,
    service_starts (events (the_run h)) = [(svc, None)] ∧
    length (started_tasks (events (the_run h))) = length contexts ∧
    task_group_exits (events (the_run h)) = [None] ∧
    service_stops (events (the_run h)) = [(svc, None)] ∧
    built_reports (events (the_run h)) = [report] ∧
    saved_reports (events (the_run h)) = [(report, None)] ∧
    length (steps_results report) = length contexts.
Proof.
  rewrite events_batch, outcome_batch. all_exit_paths h; intros Hret; simplify_eq.
  split; [done|].
  exists (service_of (h first)), (report_for first h' results).
  destruct (classify_returned _ _ _ Hclassify) as [_ Hlen].
  repeat split; project; try done.
  by rewrite length_map.
Qed.

(** X11.  Once the task group has been left, every context of the batch
    holds the one service that was started, and a client labelled with the
    pipeline name and the technical name of its connector; this as long as
    the tasks do not replace them. *)
Theorem contexts_share_the_started_service h (a : Ref) r :
  (∀ tasks h' a', dockerd_service ((tasks_run env tasks h').1 a') = dockerd_service (h' a')) →
  (∀ tasks h' a', dagger_client ((tasks_run env tasks h').1 a') = dagger_client (h' a')) →
  a ∈ contexts →
  TaskGroupExit r ∈ events (the_run h) →
  ∃ svc,
    service_starts (events (the_run h)) = [(svc, None)] ∧
    dockerd_service (final_heap (the_run h) a) = Some svc ∧
    dagger_client (final_heap (the_run h) a) =
      Some (pipeline the_client
              (pipeline_name +:+ " - " +:+ technical_name (connector (h a)))).
Proof.
  intros Hsvc Hcli Hin. rewrite events_batch, final_heap_batch.
  all_exit_paths h; intros Hr.
  all: try (member_of elem_of_task_group_exits Hr; by no_member Hr).
  all: exists (service_of (h first)); split; [by project|].
  all: assert (h' = (tasks_run env (map (task_for h) contexts)
                       (launch_heap the_client (service_of (h first)) h contexts)).1)
         as -> by (by rewrite Hjoin).
  all: rewrite ?dockerd_service_update_pipeline_name, ?dagger_client_update_pipeline_name.
  all: rewrite Hsvc, Hcli, launch_heap_at, decide_True by done.
  all: done.
Qed.

(** ** More on the completion report *)

(** X9.  On a batch that is not empty, [run_report_complete_pipeline] leaves
    every context as it was, except that the first context gets the name of
    the report as its [pipeline_name]; it does so before it classifies, so
    also when the classification raises and no report is built. *)
Theorem report_renames_the_first_context client (head : Ref) w (a : Ref) :
  contexts !! 0 = Some head →
  final_heap (run_report_complete_pipeline env client contexts w) a =
    if decide (a = head)
    then set_pipeline_name
           ("Report upload " +:+ report_output_prefix (heap w head)) (heap w a)
    else heap w a.
Proof.
  intros Hhead. destruct w as [h sch t]. unfold final_heap.
  rewrite run_report_complete_pipeline_unfold. unfold report. rewrite Hhead.
  cbn [heap]. by destruct (classify h contexts); cbn; unfold update; case_decide; subst.
Qed.

End Specification.

(** ** The empty batch *)

(** C1 (the code departs from it).  On an empty list of contexts
    [run_connectors_pipelines] does not return: once the connection is open it
    raises IndexError at [contexts[0]], and the connection is left.  Before
    that, the service is not started and no report is built, as the claim
    says.  [run_report_complete_pipeline], for its part, returns at once on an
    empty list. *)
Theorem empty_batch_raises_index_error {Callable Any : Type}
    (env : @Collaborators Callable Any) (connector_pipeline : Callable)
    (pipeline_name : string) (concurrency : Z) (dagger_logs_path : option Path)
    (execute_timeout : option Z) (args : list Any) (h : Heap) :
  let r := run_connectors_pipelines env [] connector_pipeline pipeline_name
             concurrency dagger_logs_path execute_timeout args (started_from h) in
  let cfg := the_config dagger_logs_path execute_timeout in
  outcome r = Raised (default IndexError (connection_enter env cfg)) ∧
  events r =
    prologue dagger_logs_path ++
    ConnectionEnter cfg (connection_enter env cfg) ::
    match connection_enter env cfg with
    | Some _ => []
    | None => [ConnectionExit]
    end ∧
  final_heap r = h ∧
  ∀ client w,
    run_report_complete_pipeline env client [] w = (Returned tt, w).
Proof.
  cbv zeta. rewrite outcome_batch, events_batch, final_heap_batch. unfold batch.
  by destruct (connection_enter env _).
Qed.

(** ** The theorems at work on concrete batches *)

Lemma context_to_step_result_classifies_witness :
  state (heap (@started_from string Z finished) 0) = ContextState.SUCCESSFUL ∧
  context_to_step_result 0 (@started_from string Z finished) =
    (Returned (result_record 0 StepStatus.SUCCESS), started_from finished).
Proof.
  split; [reflexivity|].
  apply (proj1 (context_to_step_result_classifies 0 (@started_from string Z finished))).
  reflexivity.
Defined.

Lemma unrecognized_state_aborts_report_witness :
  1 ∈ [0; 1] ∧
  recognized (state (heap (@started_from string Z one_pending) 1)) = false ∧
  ∃ s, recognized s = false ∧
       outcome (run_report_complete_pipeline reliable
                  (the_client None None) [0; 1] (started_from one_pending)) =
         Raised (ValueError s) ∧
       events (run_report_complete_pipeline reliable
                 (the_client None None) [0; 1] (started_from one_pending)) = [].
Proof.
  assert (1 ∈ [0; 1]) as Hin by (apply (list_elem_of_lookup_2 _ 1); reflexivity).
  split; [exact Hin|]. split; [reflexivity|].
  apply (unrecognized_state_aborts_report reliable [0; 1] (the_client None None) 1
           (started_from one_pending) Hin).
  reflexivity.
Defined.

Lemma report_results_in_input_order_witness :
  [0; 1] !! 0 = Some 0 ∧
  Forall (λ context, recognized (state (heap (@started_from string Z finished) context)) = true)
    [0; 1] ∧
  ∃ r,
    events (run_report_complete_pipeline reliable (the_client None None) [0; 1]
              (started_from finished)) =
      [ReportInit r; ReportSave r None] ∧
    pipeline_context r = 0 ∧
    length (steps_results r) = 2.
Proof.
  assert (Forall (λ context,
            recognized (state (heap (@started_from string Z finished) context)) = true)
            [0; 1]) as Hall by (repeat constructor).
  split; [reflexivity|]. split; [exact Hall|].
  destruct (report_results_in_input_order reliable [0; 1] (the_client None None) 0
              (started_from finished) eq_refl Hall) as (r & Hev & Hctx & Hlen & _).
  exists r. split; [exact Hev|]. split; [exact Hctx | exact Hlen].
Defined.



Lemma service_started_before_launch_witness :
  events (run_connectors_pipelines reliable [0; 1] "connector_pipeline" "test" 2
            None None [7%Z] (started_from two_connectors)) !! 23 =
    Some (StartSoon
            {| task_func := "connector_pipeline"; task_context := 0;
               task_semaphore := {| sem_scope := ModuleScope; initial_value := 1 |};
               task_args := [7%Z] |}) ∧
  ∃ j svc, j < 23 ∧
    events (run_connectors_pipelines reliable [0; 1] "connector_pipeline" "test" 2
              None None [7%Z] (started_from two_connectors)) !! j =
      Some (ServiceStart svc None).
Proof.
  assert (events (run_connectors_pipelines reliable [0; 1] "connector_pipeline" "test" 2
                    None None [7%Z] (started_from two_connectors)) !! 23 =
            Some (StartSoon
                    {| task_func := "connector_pipeline"; task_context := 0;
                       task_semaphore := {| sem_scope := ModuleScope; initial_value := 1 |};
                       task_args := [7%Z] |})) as Hlaunch
    by (vm_compute; reflexivity).
  split; [exact Hlaunch|].
  exact (service_started_before_launch reliable [0; 1] "connector_pipeline" "test" 2
           None None [7%Z] two_connectors 23 _ Hlaunch).
Defined.

Lemma service_stopped_once_after_join_witness :
  TaskGroupExit None ∈
    events (run_connectors_pipelines reliable [0; 1] "connector_pipeline" "test" 2
              None None [7%Z] (started_from two_connectors)) ∧
  length (service_stops
            (events (run_connectors_pipelines reliable [0; 1] "connector_pipeline" "test" 2
                       None None [7%Z] (started_from two_connectors)))) = 1.
Proof.
  assert (TaskGroupExit None ∈
            events (run_connectors_pipelines reliable [0; 1] "connector_pipeline" "test" 2
                      None None [7%Z] (started_from two_connectors))) as Hjoin.
  { apply (list_elem_of_lookup_2 _ 26). vm_compute. reflexivity. }
  split; [exact Hjoin|].
  exact (proj1 (proj2 (proj2
           (service_stopped_once_after_join reliable [0; 1] "connector_pipeline" "test" 2
              None None [7%Z] two_connectors))) Hjoin).
Defined.


Lemma service_configured_from_first_context_witness :
  connection_enter reliable (the_config None None) = None ∧
  [0; 1] !! 0 = Some 0 ∧
  service_configuration
    (events (run_connectors_pipelines reliable [0; 1] "connector_pipeline" "test" 2
               None None [7%Z] (started_from two_connectors))) =
    [ SetSecret {| secret_name := "DOCKER_HUB_USERNAME"; plaintext := "ci-user" |};
      SetSecret {| secret_name := "DOCKER_HUB_PASSWORD"; plaintext := "ci-token" |};
      WithGlobalDockerdService
        {| service_client := the_client None None;
           registry_credentials :=
             Some ({| secret_name := "DOCKER_HUB_USERNAME"; plaintext := "ci-user" |},
                   {| secret_name := "DOCKER_HUB_PASSWORD"; plaintext := "ci-token" |}) |} ].
Proof.
  split; [reflexivity|]. split; [reflexivity|].
  rewrite (service_configured_from_first_context reliable [0; 1] "connector_pipeline"
             "test" 2 None None [7%Z] two_connectors 0 eq_refl eq_refl).
  vm_compute. reflexivity.
Defined.

(** ** Where the code departs from the claims *)

(** C7 as stated fails: a batch of two contexts, one of whose tasks raises.
    The task group raises at the join, the call raises with it, and
    [dockerd_service.stop()] is never called. *)
Lemma service_not_stopped_when_a_task_raises :
  let r := run_connectors_pipelines one_task_raises [0; 1] "connector_pipeline" "test" 2
             None None [7%Z] (started_from two_connectors) in
  outcome r = Raised (CollaboratorError "connector pipeline failed") ∧
  task_group_exits (events r) = [Some (CollaboratorError "connector pipeline failed")] ∧
  service_stops (events r) = [] ∧
  length (service_stops (events r)) ≠ 1.
Proof. vm_compute. repeat split; discriminate. Qed.


(** C1 on a concrete call: the empty list, with collaborators that never
    raise. *)
Lemma empty_batch_example :
  let r := run_connectors_pipelines reliable [] "connector_pipeline" "test" 2
             None None [7%Z] (started_from two_connectors) in
  outcome r = Raised IndexError ∧
  events r =
    [ LoggerInfo "<<<<<<<<<<<<<<< starting run_connectors_pipelines(execute_timeout=";
      ConnectionEnter (the_config None None) None;
      ConnectionExit ].
Proof. vm_compute. split; reflexivity. Qed.

(** ** The further theorems at work on concrete batches *)

Lemma connection_left_on_every_path_witness :
  connection_exits
    (events (run_connectors_pipelines one_task_raises [0; 1] "connector_pipeline" "test" 2
               None None [7%Z] (started_from two_connectors))) = [()].
Proof.
  exact (proj1 (connection_left_on_every_path one_task_raises [0; 1] "connector_pipeline"
                  "test" 2 None None [7%Z] two_connectors)).
Defined.

Lemma start_failure_aborts_before_launch_witness :
  ServiceStart java_service (Some (CollaboratorError "dockerd did not start")) ∈
    events (run_connectors_pipelines start_fails [0; 1] "connector_pipeline" "test" 2
              None None [7%Z] (started_from two_connectors)) ∧
  outcome (run_connectors_pipelines start_fails [0; 1] "connector_pipeline" "test" 2
             None None [7%Z] (started_from two_connectors)) =
    Raised (CollaboratorError "dockerd did not start") ∧
  started_tasks
    (events (run_connectors_pipelines start_fails [0; 1] "connector_pipeline" "test" 2
               None None [7%Z] (started_from two_connectors))) = [].
Proof.
  assert (ServiceStart java_service (Some (CollaboratorError "dockerd did not start")) ∈
            events (run_connectors_pipelines start_fails [0; 1] "connector_pipeline" "test" 2
                      None None [7%Z] (started_from two_connectors))) as Hin.
  { apply (list_elem_of_lookup_2 _ 6). vm_compute. reflexivity. }
  split; [exact Hin|].
  destruct (start_failure_aborts_before_launch start_fails [0; 1] "connector_pipeline"
              "test" 2 None None [7%Z] two_connectors _ _ Hin) as (Hout & Htasks & _).
  split; [exact Hout | exact Htasks].
Defined.

Lemma stop_failure_prevents_the_report_witness :
  ServiceStop java_service (Some (CollaboratorError "dockerd did not stop")) ∈
    events (run_connectors_pipelines stop_fails [0; 1] "connector_pipeline" "test" 2
              None None [7%Z] (started_from two_connectors)) ∧
  outcome (run_connectors_pipelines stop_fails [0; 1] "connector_pipeline" "test" 2
             None None [7%Z] (started_from two_connectors)) =
    Raised (CollaboratorError "dockerd did not stop") ∧
  built_reports
    (events (run_connectors_pipelines stop_fails [0; 1] "connector_pipeline" "test" 2
               None None [7%Z] (started_from two_connectors))) = [].
Proof.
  assert (ServiceStop java_service (Some (CollaboratorError "dockerd did not stop")) ∈
            events (run_connectors_pipelines stop_fails [0; 1] "connector_pipeline" "test" 2
                      None None [7%Z] (started_from two_connectors))) as Hin.
  { apply (list_elem_of_lookup_2 _ 28). vm_compute. reflexivity. }
  split; [exact Hin|].
  destruct (stop_failure_prevents_the_report stop_fails [0; 1] "connector_pipeline"
              "test" 2 None None [7%Z] two_connectors _ _ Hin) as (Hout & _ & Hbuilt & _).
  split; [exact Hout | exact Hbuilt].
Defined.


Lemma report_built_after_service_stopped_witness :
  ∃ r,
    events (run_connectors_pipelines reliable [0; 1] "connector_pipeline" "test" 2
              None None [7%Z] (started_from two_connectors)) !! 30 = Some (ReportInit r) ∧
    ∃ j svc, j < 30 ∧
      events (run_connectors_pipelines reliable [0; 1] "connector_pipeline" "test" 2
                None None [7%Z] (started_from two_connectors)) !! j =
        Some (ServiceStop svc None).
Proof.
  assert (∃ r,
            events (run_connectors_pipelines reliable [0; 1] "connector_pipeline" "test" 2
                      None None [7%Z] (started_from two_connectors)) !! 30 =
              Some (ReportInit r)) as [r Hr].
  { eexists. vm_compute. reflexivity. }
  exists r. split; [exact Hr|].
  exact (report_built_after_service_stopped reliable [0; 1] "connector_pipeline" "test" 2
           None None [7%Z] two_connectors 30 r Hr).
Defined.

Lemma tasks_launched_before_join_witness :
  events (run_connectors_pipelines reliable [0; 1] "connector_pipeline" "test" 2
            None None [7%Z] (started_from two_connectors)) !! 25 =
    Some (StartSoon
            {| task_func := "connector_pipeline"; task_context := 1;
               task_semaphore := {| sem_scope := CallScope; initial_value := 2 |};
               task_args := [7%Z] |}) ∧
  events (run_connectors_pipelines reliable [0; 1] "connector_pipeline" "test" 2
            None None [7%Z] (started_from two_connectors)) !! 26 =
    Some (TaskGroupExit None) ∧
  25 < 26.
Proof.
  assert (events (run_connectors_pipelines reliable [0; 1] "connector_pipeline" "test" 2
                    None None [7%Z] (started_from two_connectors)) !! 25 =
            Some (StartSoon
                    {| task_func := "connector_pipeline"; task_context := 1;
                       task_semaphore := {| sem_scope := CallScope; initial_value := 2 |};
                       task_args := [7%Z] |})) as Hlaunch
    by (vm_compute; reflexivity).
  assert (events (run_connectors_pipelines reliable [0; 1] "connector_pipeline" "test" 2
                    None None [7%Z] (started_from two_connectors)) !! 26 =
            Some (TaskGroupExit None)) as Hjoin
    by (vm_compute; reflexivity).
  split; [exact Hlaunch|]. split; [exact Hjoin|].
  exact (tasks_launched_before_join reliable [0; 1] "connector_pipeline" "test" 2
           None None [7%Z] two_connectors 25 26 _ _ Hlaunch Hjoin).
Defined.


Lemma normal_return_means_report_saved_witness :
  outcome (run_connectors_pipelines reliable [0; 1] "connector_pipeline" "test" 2
             None None [7%Z] (started_from two_connectors)) = Returned [0; 1] ∧
  ∃ svc report,
    service_stops
      (events (run_connectors_pipelines reliable [0; 1] "connector_pipeline" "test" 2
                 None None [7%Z] (started_from two_connectors))) = [(svc, None)] ∧
    saved_reports
      (events (run_connectors_pipelines reliable [0; 1] "connector_pipeline" "test" 2
                 None None [7%Z] (started_from two_connectors))) = [(report, None)] ∧
    length (steps_results report) = 2.
Proof.
  assert (outcome (run_connectors_pipelines reliable [0; 1] "connector_pipeline" "test" 2
                     None None [7%Z] (started_from two_connectors)) = Returned [0; 1]) as Hret
    by (vm_compute; reflexivity).
  split; [exact Hret|].
  destruct (normal_return_means_report_saved reliable [0; 1] "connector_pipeline" "test" 2
              None None [7%Z] two_connectors [0; 1] Hret)
    as (_ & svc & report & _ & _ & _ & Hstop & _ & Hsaved & Hlen).
  exists svc, report. split; [exact Hstop|]. split; [exact Hsaved | exact Hlen].
Defined.

Lemma report_renames_the_first_context_witness :
  [0; 1] !! 0 = Some 0 ∧
  pipeline_name
    (final_heap (run_report_complete_pipeline reliable stderr_client [0; 1]
                   (started_from one_pending)) 0) =
    "Report upload airbyte-ci/connectors/test/1700000000" ∧
  outcome (run_report_complete_pipeline reliable stderr_client [0; 1]
             (started_from one_pending)) = Raised (ValueError ContextState.PENDING).
Proof.
  split; [reflexivity|]. split; [|vm_compute; reflexivity].
  rewrite (report_renames_the_first_context reliable [0; 1] stderr_client 0
             (started_from one_pending) 0 eq_refl).
  vm_compute. reflexivity.
Defined.


Lemma contexts_share_the_started_service_witness :
  (∀ tasks h' a', dockerd_service ((tasks_run idle_tasks tasks h').1 a') = dockerd_service (h' a')) ∧
  (∀ tasks h' a', dagger_client ((tasks_run idle_tasks tasks h').1 a') = dagger_client (h' a')) ∧
  1 ∈ [0; 1] ∧
  TaskGroupExit None ∈
    events (run_connectors_pipelines idle_tasks [0; 1] "connector_pipeline" "test" 2
              None None [7%Z] (started_from two_connectors)) ∧
  ∃ svc,
    dockerd_service
      (final_heap (run_connectors_pipelines idle_tasks [0; 1] "connector_pipeline" "test" 2
                     None None [7%Z] (started_from two_connectors)) 1) = Some svc ∧
    dagger_client
      (final_heap (run_connectors_pipelines idle_tasks [0; 1] "connector_pipeline" "test" 2
                     None None [7%Z] (started_from two_connectors)) 1) =
      Some (pipeline stderr_client "test - source-faker").
Proof.
  assert (1 ∈ [0; 1]) as Hin by (apply (list_elem_of_lookup_2 _ 1); reflexivity).
  assert (TaskGroupExit None ∈
            events (run_connectors_pipelines idle_tasks [0; 1] "connector_pipeline" "test" 2
                      None None [7%Z] (started_from two_connectors))) as Hjoin.
  { apply (list_elem_of_lookup_2 _ 26). vm_compute. reflexivity. }
  split; [intros; reflexivity|]. split; [intros; reflexivity|].
  split; [exact Hin|]. split; [exact Hjoin|].
  destruct (contexts_share_the_started_service idle_tasks [0; 1] "connector_pipeline"
              "test" 2 None None [7%Z] two_connectors 1 None
              (λ _ _ _, eq_refl) (λ _ _ _, eq_refl) Hin Hjoin) as (svc & _ & Hsvc & Hcli).
  exists svc. split; [exact Hsvc | exact Hcli].
Defined.
